(** * Signature verification of the log's crypto package

    A shallow embedding of the Go file that holds [PublicKeyFromFile],
    [PublicKeyFromPEM], [VerifyObject], [Verify], [verifyRSA] and
    [verifyECDSA], together with the properties the specification states
    about them.

    The file calls into the Go standard library (encoding/pem, crypto/x509,
    encoding/json, encoding/asn1, crypto/ecdsa, crypto/rsa, io/ioutil) and
    into objecthash.  Those packages are not part of the program: they are
    collected in the record [Library], every function of the program takes
    the library as a parameter, and every theorem holds for all libraries.
    Each call into the library is recorded in a trace, so that statements of
    the form "no primitive is invoked" are statements about the trace. *)

From Stdlib Require Import ZArith String List Bool Lia.
From Stdlib.Strings Require Import Byte.
From stdpp Require Import base option list gmap strings.

Local Open Scope Z_scope.

(** Go's [[]byte]. *)
Abbreviation bytes := (list byte).

(** ** Imported declarations *)

Module sigpb.
(** Modelled from the spec: package crypto/sigpb, the generated message
    type DigitallySigned with its two enumerations, is not among the
    source files.  Section 6 of the specification gives the message and
    the enumeration values.  Protocol-buffer enumerations are int32 in Go,
    so a field can hold any integer, also one that names no algorithm. *)
Definition DigitallySigned_HashAlgorithm := Z.
Definition DigitallySigned_SignatureAlgorithm := Z.

Definition DigitallySigned_SHA256 : DigitallySigned_HashAlgorithm := 1.
Definition DigitallySigned_ECDSA : DigitallySigned_SignatureAlgorithm := 1.
Definition DigitallySigned_RSA : DigitallySigned_SignatureAlgorithm := 2.

Record DigitallySigned := {
  HashAlgorithm : DigitallySigned_HashAlgorithm;
  SignatureAlgorithm : DigitallySigned_SignatureAlgorithm;
  Signature : bytes
}.
End sigpb.

Module ecdsa.
(** [ecdsa.PublicKey]: a curve, named here, and a point on it. *)
Record PublicKey := { Curve : string; X : Z; Y : Z }.
End ecdsa.

Module crypto.
(** [type Hash uint]; [SHA256] is the fifth identifier of the standard
    library's enumeration, and 0 is the zero value of the type. *)
Definition Hash := Z.
Definition SHA256 : Hash := 5.
End crypto.

Module rsa.
(** [rsa.PublicKey]: modulus and public exponent. *)
Record PublicKey := { N : Z; E : Z }.
Record PSSOptions := { SaltLength : Z; Hash : crypto.Hash }.
End rsa.

Module pem.
Record Block := { Type_ : string; Bytes : bytes }.
End pem.

(** [crypto.PublicKey] is the empty interface: a value of it is a value of
    any dynamic type.  The type switch of [Verify] tells apart
    [*ecdsa.PublicKey], [*rsa.PublicKey] and everything else; a value of
    another type is kept by the name that [%T] prints for it, and [nil_key]
    is the nil interface value.  A key pointer inside the interface is taken
    to point to a key. *)
Inductive PublicKey :=
| ecdsa_key (key : ecdsa.PublicKey)
| rsa_key (key : rsa.PublicKey)
| other_key (T : string)
| nil_key.

(** What [%T] prints for the default branch of the type switch. *)
Definition type_name (pub : PublicKey) : string :=
  match pub with
  | ecdsa_key _ => "*ecdsa.PublicKey"
  | rsa_key _ => "*rsa.PublicKey"
  | other_key T => T
  | nil_key => "<nil>"
  end.

(** [crypto.SignerOpts] is an interface too; [verifyRSA] asserts its dynamic
    type, which is a [crypto.Hash] or a [*rsa.PSSOptions]. *)
Inductive SignerOpts :=
| opts_Hash (h : crypto.Hash)
| opts_PSS (pssOpts : rsa.PSSOptions).

(** The struct [verifyECDSA] unmarshals into. *)
Record ecdsaSig := { R : Z; S : Z }.

(** ** Errors *)

(** An error made by a library function, by its message. *)
Definition lib_error := string.

(** The error values the program returns, one constructor per place that
    makes one:
    - [errVerify] is the package variable
      [errors.New("signature verification failed")];
    - [errUnsupportedHash hasher] is
      [fmt.Errorf("unsupported hash algorithm %v", hasher)];
    - [errAlgoMismatch] is
      [fmt.Errorf("signature algorithm does not match public key")],
      made in both the ECDSA and the RSA branch;
    - [errUnknownKeyType T] is [fmt.Errorf("unknown private key type: %T", key)];
    - [errFailedToRead f e] is [fmt.Errorf("failed to read: %s. %v", f, e)];
    - [errCouldNotDecodePEM] is
      [errors.New("could not decode PEM for public key")];
    - [errExtraData] is [errors.New("extra data found after PEM key decoded")];
    - [errUnableToParse e] is [fmt.Errorf("unable to parse public key: %v", e)];
    - [errLib e] is an error of a library function, returned as it is. *)
Inductive error :=
| errVerify
| errUnsupportedHash (hasher : crypto.Hash)
| errAlgoMismatch
| errUnknownKeyType (T : string)
| errFailedToRead (keyFile : string) (err : lib_error)
| errCouldNotDecodePEM
| errExtraData
| errUnableToParse (err : lib_error)
| errLib (err : lib_error).

(** The specification's names for the failures of verification and of key
    loading.  The program has one value, [errVerify], for both
    MalformedSignature and VerificationFailed. *)
Inductive Reason :=
| UnsupportedHashAlgorithm
| AlgorithmMismatch
| UnknownKeyType
| SignatureRejected
| MalformedKeyEncoding
| TrailingData
| UnsupportedKeyFormat
| ReadFailed
| LibraryFailure.

Definition reason (e : error) : Reason :=
  match e with
  | errVerify => SignatureRejected
  | errUnsupportedHash _ => UnsupportedHashAlgorithm
  | errAlgoMismatch => AlgorithmMismatch
  | errUnknownKeyType _ => UnknownKeyType
  | errFailedToRead _ _ => ReadFailed
  | errCouldNotDecodePEM => MalformedKeyEncoding
  | errExtraData => TrailingData
  | errUnableToParse _ => UnsupportedKeyFormat
  | errLib _ => LibraryFailure
  end.

(** A Go result pair [(value, error)] of a library function. *)
Inductive result (A : Type) :=
| Ok (a : A)
| Err (err : lib_error).
Arguments Ok {A} a.
Arguments Err {A} err.

(** ** Calls into the library, and the trace of a run *)

Inductive Call :=
| ReadFile_call (keyFile : string)
| pem_Decode_call (data : bytes)
| ParsePKIXPublicKey_call (derBytes : bytes)
| json_Marshal_call
| CommonJSONHash_call (j : string)
| Hash_call (hasher : crypto.Hash) (data : bytes)
| asn1_Unmarshal_call (sig : bytes)
| ecdsa_Verify_call (pub : ecdsa.PublicKey) (hashed : bytes) (r s : Z)
| rsa_VerifyPSS_call (pub : rsa.PublicKey) (hasher : crypto.Hash)
    (hashed sig : bytes) (pssOpts : rsa.PSSOptions)
| rsa_VerifyPKCS1v15_call (pub : rsa.PublicKey) (hasher : crypto.Hash)
    (hashed sig : bytes).

(** Decoding of signature bytes and the ECDSA and RSA checks. *)
Definition is_signature_primitive (c : Call) : bool :=
  match c with
  | asn1_Unmarshal_call _ | ecdsa_Verify_call _ _ _ _
  | rsa_VerifyPSS_call _ _ _ _ _ | rsa_VerifyPKCS1v15_call _ _ _ _ => true
  | _ => false
  end.

(** The same, and the digest function. *)
Definition is_crypto_primitive (c : Call) : bool :=
  match c with
  | Hash_call _ _ => true
  | _ => is_signature_primitive c
  end.

Definition is_digest (c : Call) : bool :=
  match c with Hash_call _ _ => true | _ => false end.

Definition is_pem_Decode (c : Call) : bool :=
  match c with pem_Decode_call _ => true | _ => false end.

Definition is_VerifyPSS (c : Call) : bool :=
  match c with rsa_VerifyPSS_call _ _ _ _ _ => true | _ => false end.

(** A run yields the calls it made, in order, and its value. *)
Definition M (A : Type) : Type := list Call * A.

#[global] Instance M_ret : MRet M := fun A a => ([], a).

#[global] Instance M_bind : MBind M := fun A B k m =>
  let r := k (snd m) in (fst m ++ fst r, snd r).

(** One call into the library: the call is logged, [a] is what it returns. *)
Definition call {A} (c : Call) (a : A) : M A := ([c], a).

Definition calls {A} (m : M A) : list Call := fst m.
Definition value {A} (m : M A) : A := snd m.

(** Whether a run made a call of a given kind. *)
Definition invokes {A} (p : Call -> bool) (m : M A) : bool :=
  existsb p (calls m).

(** ** The library *)

Record Library (Object : Type) := {
  ioutil_ReadFile : string -> result bytes;
  (** [pem.Decode]: the first block, if one is found, and the rest. *)
  pem_Decode : bytes -> option pem.Block * bytes;
  x509_ParsePKIXPublicKey : bytes -> result PublicKey;
  json_Marshal : Object -> result bytes;
  objecthash_CommonJSONHash : string -> bytes;
  (** [h := hasher.New(); h.Write(data); h.Sum(nil)] *)
  hash_Sum : crypto.Hash -> bytes -> bytes;
  (** [asn1.Unmarshal(sig, &ecdsaSig)]: the struct filled in and the rest. *)
  asn1_Unmarshal : bytes -> result (ecdsaSig * bytes);
  ecdsa_Verify : ecdsa.PublicKey -> bytes -> Z -> Z -> bool;
  rsa_VerifyPSS :
    rsa.PublicKey -> crypto.Hash -> bytes -> bytes -> rsa.PSSOptions ->
    option lib_error;
  rsa_VerifyPKCS1v15 :
    rsa.PublicKey -> crypto.Hash -> bytes -> bytes -> option lib_error
}.
Arguments ioutil_ReadFile {Object} _ _.
Arguments pem_Decode {Object} _ _.
Arguments x509_ParsePKIXPublicKey {Object} _ _.
Arguments json_Marshal {Object} _ _.
Arguments objecthash_CommonJSONHash {Object} _ _.
Arguments hash_Sum {Object} _ _ _.
Arguments asn1_Unmarshal {Object} _ _.
Arguments ecdsa_Verify {Object} _ _ _ _ _.
Arguments rsa_VerifyPSS {Object} _ _ _ _ _ _.
Arguments rsa_VerifyPKCS1v15 {Object} _ _ _ _ _.

(** ** The program *)

(** The package variable [cryptoHashLookup]. *)
Definition cryptoHashLookup : gmap Z crypto.Hash :=
  {[ sigpb.DigitallySigned_SHA256 := crypto.SHA256 ]}.

(** Go's two-value map index [v, ok := m[k]]: the zero value and [false]
    when the key is absent. *)
Definition index2 (m : gmap Z crypto.Hash) (k : Z) : crypto.Hash * bool :=
  match m !! k with
  | Some v => (v, true)
  | None => (0, false)
  end.

(** Whether the table knows a hash algorithm. *)
Definition supported (hashAlgorithm : Z) : bool :=
  snd (index2 cryptoHashLookup hashAlgorithm).

(** The runtime variant of a key, as the type switch sees it. *)
Definition is_ecdsa (pub : PublicKey) : bool :=
  match pub with ecdsa_key _ => true | _ => false end.

Definition is_rsa (pub : PublicKey) : bool :=
  match pub with rsa_key _ => true | _ => false end.

Section Program.
Context {Object : Type} (L : Library Object).

(** [PublicKeyFromPEM] *)
Definition PublicKeyFromPEM (pemEncodedKey : string) : M (PublicKey + error) :=
  let data := list_byte_of_string pemEncodedKey in
  '(publicBlock, rest) ← call (pem_Decode_call data) (pem_Decode L data);
  match publicBlock with
  | None => mret (inr errCouldNotDecodePEM)
  | Some publicBlock =>
    if (0 <? Z.of_nat (length rest)) then mret (inr errExtraData)
    else
      r ← call (ParsePKIXPublicKey_call (pem.Bytes publicBlock))
             (x509_ParsePKIXPublicKey L (pem.Bytes publicBlock));
      match r with
      | Err err => mret (inr (errUnableToParse err))
      | Ok parsedKey => mret (inl parsedKey)
      end
  end.

(** [PublicKeyFromFile] *)
Definition PublicKeyFromFile (keyFile : string) : M (PublicKey + error) :=
  r ← call (ReadFile_call keyFile) (ioutil_ReadFile L keyFile);
  match r with
  | Err err => mret (inr (errFailedToRead keyFile err))
  | Ok pemData => PublicKeyFromPEM (string_of_list_byte pemData)
  end.

(** [verifyRSA] *)
Definition verifyRSA (pub : rsa.PublicKey) (hashed sig : bytes)
    (hasher : crypto.Hash) (opts : SignerOpts) : M (option error) :=
  match opts with
  | opts_PSS pssOpts =>
    r ← call (rsa_VerifyPSS_call pub hasher hashed sig pssOpts)
           (rsa_VerifyPSS L pub hasher hashed sig pssOpts);
    mret (errLib <$> r)
  | opts_Hash _ =>
    r ← call (rsa_VerifyPKCS1v15_call pub hasher hashed sig)
           (rsa_VerifyPKCS1v15 L pub hasher hashed sig);
    mret (errLib <$> r)
  end.

(** [verifyECDSA] *)
Definition verifyECDSA (pub : ecdsa.PublicKey) (hashed sig : bytes)
    : M (option error) :=
  r ← call (asn1_Unmarshal_call sig) (asn1_Unmarshal L sig);
  match r with
  | Err _ => mret (Some errVerify)
  | Ok (ecdsaSig, rest) =>
    if negb (Z.of_nat (length rest) =? 0) then mret (Some errVerify)
    else
      ok ← call (ecdsa_Verify_call pub hashed (R ecdsaSig) (S ecdsaSig))
              (ecdsa_Verify L pub hashed (R ecdsaSig) (S ecdsaSig));
      if negb ok then mret (Some errVerify) else mret None
  end.

(** [Verify].  The signature is passed by pointer in the source and its
    fields are read at once; the model takes the message the pointer refers
    to, so it says nothing of a call with a nil pointer. *)
Definition Verify (pub : PublicKey) (data : bytes)
    (sig : sigpb.DigitallySigned) : M (option error) :=
  let sigAlgo := sigpb.SignatureAlgorithm sig in
  let '(hasher, ok) := index2 cryptoHashLookup (sigpb.HashAlgorithm sig) in
  if negb ok then mret (Some (errUnsupportedHash hasher))
  else
    digest ← call (Hash_call hasher data) (hash_Sum L hasher data);
    match pub with
    | ecdsa_key key =>
      if negb (sigAlgo =? sigpb.DigitallySigned_ECDSA)
      then mret (Some errAlgoMismatch)
      else verifyECDSA key digest (sigpb.Signature sig)
    | rsa_key key =>
      if negb (sigAlgo =? sigpb.DigitallySigned_RSA)
      then mret (Some errAlgoMismatch)
      else verifyRSA key digest (sigpb.Signature sig) hasher (opts_Hash hasher)
    | _ => mret (Some (errUnknownKeyType (type_name pub)))
    end.

(** [VerifyObject] *)
Definition VerifyObject (pub : PublicKey) (obj : Object)
    (sig : sigpb.DigitallySigned) : M (option error) :=
  r ← call json_Marshal_call (json_Marshal L obj);
  match r with
  | Err err => mret (Some (errLib err))
  | Ok j =>
    hash ← call (CommonJSONHash_call (string_of_list_byte j))
              (objecthash_CommonJSONHash L (string_of_list_byte j));
    Verify pub hash sig
  end.

(** The Canonical Hasher of the specification, as [VerifyObject] builds it:
    the object is serialized, and the serialization is hashed. *)
Definition CanonicalHash (obj : Object) : M (result bytes) :=
  r ← call json_Marshal_call (json_Marshal L obj);
  match r with
  | Err err => mret (Err err)
  | Ok j =>
    hash ← call (CommonJSONHash_call (string_of_list_byte j))
              (objecthash_CommonJSONHash L (string_of_list_byte j));
    mret (Ok hash)
  end.

(** Acceptance as the specification words it, gate by gate: the hash
    algorithm resolves; the digest of the data is taken; the signature
    algorithm is the one of the key's family; the signature bytes decode
    with nothing left over and the check of that family passes.  It is
    compared with [Verify] below. *)
Definition accepts (pub : PublicKey) (data : bytes)
    (sig : sigpb.DigitallySigned) : bool :=
  match cryptoHashLookup !! sigpb.HashAlgorithm sig with
  | None => false
  | Some hasher =>
    let digest := hash_Sum L hasher data in
    match pub with
    | ecdsa_key key =>
      (sigpb.SignatureAlgorithm sig =? sigpb.DigitallySigned_ECDSA) &&
      match asn1_Unmarshal L (sigpb.Signature sig) with
      | Ok (rs, []) => ecdsa_Verify L key digest (R rs) (S rs)
      | _ => false
      end
    | rsa_key key =>
      (sigpb.SignatureAlgorithm sig =? sigpb.DigitallySigned_RSA) &&
      match rsa_VerifyPKCS1v15 L key hasher digest (sigpb.Signature sig) with
      | None => true
      | Some _ => false
      end
    | _ => false
    end
  end.

(** Signature bytes that do not decode, or decode with bytes left over. *)
Definition malformed (sigBytes : bytes) : bool :=
  match asn1_Unmarshal L sigBytes with
  | Ok (_, []) => false
  | _ => true
  end.

End Program.

(** ** Vocabulary for statements about runs *)


Definition is_ecdsa_Verify (c : Call) : bool :=
  match c with ecdsa_Verify_call _ _ _ _ => true | _ => false end.

Section Vocabulary.
Context {Object : Type} (L : Library Object).

(** A call that belongs to the verification of [sigBytes] over [data] under
    SHA-256: the digest of [data] itself, the decoding of [sigBytes], or a
    check made on that digest. *)
Definition on_digest_of (data sigBytes : bytes) (c : Call) : Prop :=
  match c with
  | Hash_call hasher d => hasher = crypto.SHA256 /\ d = data
  | asn1_Unmarshal_call s => s = sigBytes
  | ecdsa_Verify_call _ hashed _ _ => hashed = hash_Sum L crypto.SHA256 data
  | rsa_VerifyPKCS1v15_call _ hasher hashed s =>
    hasher = crypto.SHA256 /\ hashed = hash_Sum L crypto.SHA256 data /\
    s = sigBytes
  | _ => False
  end.

(** The signature algorithm is the one of the key's family. *)
Definition bound (pub : PublicKey) (sig : sigpb.DigitallySigned) : bool :=
  match pub with
  | ecdsa_key _ => sigpb.SignatureAlgorithm sig =? sigpb.DigitallySigned_ECDSA
  | rsa_key _ => sigpb.SignatureAlgorithm sig =? sigpb.DigitallySigned_RSA
  | _ => false
  end.

End Vocabulary.

(** ** A small library to run the program on

    The theorems below hold for every library.  To run the program on
    concrete inputs one library is needed; [demo] is a stand-in with the
    shape of the real one and none of its cryptography: keys are framed as
    [<body>] instead of PEM armour, the digest reverses its input, and a
    signature is accepted by comparing numbers.  Only [demo_asn1_Unmarshal]
    follows the real format: it reads a DER sequence of two non-negative
    integers with one-byte lengths. *)

Module Demo.

Definition byte_Z (b : byte) : Z := Z.of_N (Byte.to_N b).

Fixpoint big_endian (acc : Z) (bs : bytes) : Z :=
  match bs with
  | [] => acc
  | b :: bs => big_endian (acc * 256 + byte_Z b) bs
  end.

(** A header [tag len] followed by at least [len] bytes, [len < 128]. *)
Definition der_TLV (tag : Z) (bs : bytes) : option (bytes * bytes) :=
  match bs with
  | t :: len :: tl =>
    let n := Z.to_nat (byte_Z len) in
    if (byte_Z t =? tag) && (byte_Z len <? 128) && (n <=? length tl)%nat
    then Some (take n tl, drop n tl)
    else None
  | _ => None
  end.

Definition der_INTEGER (bs : bytes) : option (Z * bytes) :=
  match der_TLV 2 bs with
  | Some (v, tl) => if (0 <? length v)%nat then Some (big_endian 0 v, tl) else None
  | None => None
  end.

Definition demo_asn1_Unmarshal (sig : bytes) : result (ecdsaSig * bytes) :=
  match der_TLV 48 sig with
  | Some (body, rest) =>
    match der_INTEGER body with
    | Some (r, body1) =>
      match der_INTEGER body1 with
      | Some (s, []) => Ok ({| R := r; S := s |}, rest)
      | _ => Err "asn1: structure error"
      end
    | None => Err "asn1: structure error"
    end
  | None => Err "asn1: syntax error"
  end.

(** The bytes up to the first [stop], and what follows it. *)
Fixpoint split_at (stop : Z) (bs : bytes) : option (bytes * bytes) :=
  match bs with
  | [] => None
  | b :: bs =>
    if byte_Z b =? stop then Some ([], bs)
    else match split_at stop bs with
         | Some (body, rest) => Some (b :: body, rest)
         | None => None
         end
  end.

Definition demo_pem_Decode (data : bytes) : option pem.Block * bytes :=
  match data with
  | b :: tl =>
    if byte_Z b =? 60 then
      match split_at 62 tl with
      | Some (body, rest) =>
        (Some {| pem.Type_ := "PUBLIC KEY"; pem.Bytes := body |}, rest)
      | None => (None, data)
      end
    else (None, data)
  | [] => (None, data)
  end.

Definition demo_ParsePKIXPublicKey (der : bytes) : result PublicKey :=
  match der with
  | [k; a; b] =>
    if byte_Z k =? 69 then
      Ok (ecdsa_key {| ecdsa.Curve := "P-256"; ecdsa.X := byte_Z a; ecdsa.Y := byte_Z b |})
    else if byte_Z k =? 82 then
      Ok (rsa_key {| rsa.N := byte_Z a; rsa.E := byte_Z b |})
    else if byte_Z k =? 68 then Ok (other_key "*dsa.PublicKey")
    else Err "x509: unknown public key algorithm"
  | _ => Err "asn1: syntax error"
  end.

(** The objects of the stand-in: a text, or a channel, which has no JSON
    form. *)
Inductive Object :=
| text (s : string)
| channel.

Definition demo_json_Marshal (obj : Object) : result bytes :=
  match obj with
  | text s => Ok (list_byte_of_string s)
  | channel => Err "json: unsupported type: chan int"
  end.

Definition same_bytes (a b : bytes) : bool :=
  bool_decide (byte_Z <$> a = byte_Z <$> b).

Definition demo : Library Object := {|
  ioutil_ReadFile keyFile :=
    if String.eqb keyFile "key.pem" then Ok (list_byte_of_string "<E12>")
    else Err "open: no such file or directory";
  pem_Decode := demo_pem_Decode;
  x509_ParsePKIXPublicKey := demo_ParsePKIXPublicKey;
  json_Marshal := demo_json_Marshal;
  objecthash_CommonJSONHash j := list_byte_of_string j;
  hash_Sum _ data := rev data;
  asn1_Unmarshal := demo_asn1_Unmarshal;
  ecdsa_Verify pub hashed r s :=
    (r =? ecdsa.X pub) && (s =? Z.of_nat (length hashed));
  rsa_VerifyPSS pub _ hashed sig _ :=
    if same_bytes sig hashed then None
    else Some "crypto/rsa: verification error";
  rsa_VerifyPKCS1v15 pub _ hashed sig :=
    if same_bytes sig hashed then None
    else Some "crypto/rsa: verification error"
|}.

(** Inputs for the examples. *)
Definition an_ecdsa_key : ecdsa.PublicKey :=
  {| ecdsa.Curve := "P-256"; ecdsa.X := 7; ecdsa.Y := 9 |}.
Definition an_rsa_key : rsa.PublicKey := {| rsa.N := 3233; rsa.E := 17 |}.

Definition some_data : bytes := list_byte_of_string "leaf".

(** [SEQUENCE { INTEGER 7, INTEGER 4 }] *)
Definition der_7_4 : bytes := [x30; x06; x02; x01; x07; x02; x01; x04].
(** [SEQUENCE { INTEGER 7, INTEGER 5 }] *)
Definition der_7_5 : bytes := [x30; x06; x02; x01; x07; x02; x01; x05].
(** Not a sequence. *)
Definition not_der : bytes := [x02; x01; x07].

(** Short names for the tags of a signature. *)
Definition SHA256 := sigpb.DigitallySigned_SHA256.
Definition ECDSA := sigpb.DigitallySigned_ECDSA.
Definition RSA := sigpb.DigitallySigned_RSA.

Definition tagged (hashAlgo sigAlgo : Z) (sig : bytes) : sigpb.DigitallySigned :=
  {| sigpb.HashAlgorithm := hashAlgo;
     sigpb.SignatureAlgorithm := sigAlgo;
     sigpb.Signature := sig |}.

(** [demo] with another decoder, digest and object hasher. *)
Definition demo_with (decode : bytes -> option pem.Block * bytes)
    (sum : crypto.Hash -> bytes -> bytes) (objecthash : string -> bytes)
    : Library Object := {|
  ioutil_ReadFile := ioutil_ReadFile demo;
  pem_Decode := decode;
  x509_ParsePKIXPublicKey := x509_ParsePKIXPublicKey demo;
  json_Marshal := json_Marshal demo;
  objecthash_CommonJSONHash := objecthash;
  hash_Sum := sum;
  asn1_Unmarshal := asn1_Unmarshal demo;
  ecdsa_Verify := ecdsa_Verify demo;
  rsa_VerifyPSS := rsa_VerifyPSS demo;
  rsa_VerifyPKCS1v15 := rsa_VerifyPKCS1v15 demo
|}.

(** The decoder of [demo], with the type line of a certificate. *)
Definition demo_pem_Decode_cert (data : bytes) : option pem.Block * bytes :=
  match demo_pem_Decode data with
  | (Some block, rest) =>
    (Some {| pem.Type_ := "CERTIFICATE"; pem.Bytes := pem.Bytes block |}, rest)
  | r => r
  end.

Definition demo_cert : Library Object :=
  demo_with demo_pem_Decode_cert (hash_Sum demo) (objecthash_CommonJSONHash demo).

(** Hashes that keep the first bytes only, so that collisions are at hand. *)
Definition demo_weak : Library Object :=
  demo_with demo_pem_Decode (fun _ data => take 2 data)
    (fun j => take 1 (list_byte_of_string j)).

End Demo.

(** ** Properties of the hash-algorithm table *)

Lemma cryptoHashLookup_Some (k : Z) (h : crypto.Hash) :
  cryptoHashLookup !! k = Some h <->
  k = sigpb.DigitallySigned_SHA256 /\ h = crypto.SHA256.
Proof.
  unfold cryptoHashLookup. rewrite lookup_singleton_Some.
  split; intros [-> ->]; split; reflexivity.
Qed.

Lemma cryptoHashLookup_None (k : Z) :
  cryptoHashLookup !! k = None <-> k <> sigpb.DigitallySigned_SHA256.
Proof.
  unfold cryptoHashLookup. rewrite lookup_singleton_None.
  split; intros H; congruence.
Qed.

Lemma index2_SHA256 :
  index2 cryptoHashLookup sigpb.DigitallySigned_SHA256 = (crypto.SHA256, true).
Proof.
  unfold index2.
  destruct (cryptoHashLookup !! sigpb.DigitallySigned_SHA256) as [h|] eqn:E.
  - apply cryptoHashLookup_Some in E as [_ ->]. reflexivity.
  - apply cryptoHashLookup_None in E. congruence.
Qed.

Lemma index2_absent (k : Z) :
  k <> sigpb.DigitallySigned_SHA256 -> index2 cryptoHashLookup k = (0, false).
Proof.
  intros H. apply cryptoHashLookup_None in H. unfold index2. now rewrite H.
Qed.

Lemma supported_true (k : Z) :
  supported k = true <-> k = sigpb.DigitallySigned_SHA256.
Proof.
  unfold supported. split.
  - intros H. destruct (Z.eq_dec k sigpb.DigitallySigned_SHA256) as [E|E]; [exact E|].
    rewrite (index2_absent _ E) in H. discriminate.
  - intros ->. now rewrite index2_SHA256.
Qed.

Lemma supported_false (k : Z) :
  supported k = false <-> cryptoHashLookup !! k = None.
Proof.
  rewrite cryptoHashLookup_None. unfold supported. split.
  - intros H ->. rewrite index2_SHA256 in H. discriminate.
  - intros H. now rewrite (index2_absent _ H).
Qed.

Lemma ECDSA_is_not_RSA :
  sigpb.DigitallySigned_ECDSA <> sigpb.DigitallySigned_RSA.
Proof. discriminate. Qed.

(** ** Properties of the program *)

Section Properties.
Context {Object : Type} (L : Library Object).

Implicit Types (pub : PublicKey) (data : bytes) (sig : sigpb.DigitallySigned).

(** With a supported hash algorithm, [Verify] computes the digest and
    then dispatches on the key. *)
Lemma Verify_supported pub data sig :
  sigpb.HashAlgorithm sig = sigpb.DigitallySigned_SHA256 ->
  Verify L pub data sig =
  (digest ← call (Hash_call crypto.SHA256 data) (hash_Sum L crypto.SHA256 data);
   match pub with
   | ecdsa_key key =>
     if negb (sigpb.SignatureAlgorithm sig =? sigpb.DigitallySigned_ECDSA)
     then mret (Some errAlgoMismatch)
     else verifyECDSA L key digest (sigpb.Signature sig)
   | rsa_key key =>
     if negb (sigpb.SignatureAlgorithm sig =? sigpb.DigitallySigned_RSA)
     then mret (Some errAlgoMismatch)
     else verifyRSA L key digest (sigpb.Signature sig) crypto.SHA256
            (opts_Hash crypto.SHA256)
   | _ => mret (Some (errUnknownKeyType (type_name pub)))
   end).
Proof.
  intros H. unfold Verify. rewrite H, index2_SHA256. reflexivity.
Qed.

Lemma Verify_unsupported pub data sig :
  sigpb.HashAlgorithm sig <> sigpb.DigitallySigned_SHA256 ->
  Verify L pub data sig = ([], Some (errUnsupportedHash 0)).
Proof.
  intros H. unfold Verify. rewrite (index2_absent _ H). reflexivity.
Qed.

(** The three ways [verifyECDSA] fails, and the one way it succeeds. *)
Lemma verifyECDSA_undecodable key hashed sigBytes err :
  asn1_Unmarshal L sigBytes = Err err ->
  verifyECDSA L key hashed sigBytes =
  ([asn1_Unmarshal_call sigBytes], Some errVerify).
Proof. intros H. unfold verifyECDSA. rewrite H. reflexivity. Qed.

Lemma verifyECDSA_trailing key hashed sigBytes rs rest :
  asn1_Unmarshal L sigBytes = Ok (rs, rest) -> rest <> [] ->
  verifyECDSA L key hashed sigBytes =
  ([asn1_Unmarshal_call sigBytes], Some errVerify).
Proof.
  intros H Hrest. unfold verifyECDSA. rewrite H.
  destruct rest as [|b rest]; [congruence | reflexivity].
Qed.

Lemma verifyECDSA_checked key hashed sigBytes rs :
  asn1_Unmarshal L sigBytes = Ok (rs, []) ->
  verifyECDSA L key hashed sigBytes =
  ([asn1_Unmarshal_call sigBytes; ecdsa_Verify_call key hashed (R rs) (S rs)],
   if ecdsa_Verify L key hashed (R rs) (S rs) then None else Some errVerify).
Proof.
  intros H. unfold verifyECDSA. rewrite H. cbn.
  destruct (ecdsa_Verify L key hashed (R rs) (S rs)); reflexivity.
Qed.

(** [verifyRSA] follows the dynamic type of its options. *)
Lemma verifyRSA_PSS key hashed sigBytes hasher pssOpts :
  verifyRSA L key hashed sigBytes hasher (opts_PSS pssOpts) =
  ([rsa_VerifyPSS_call key hasher hashed sigBytes pssOpts],
   errLib <$> rsa_VerifyPSS L key hasher hashed sigBytes pssOpts).
Proof. reflexivity. Qed.

Lemma verifyRSA_Hash key hashed sigBytes hasher h :
  verifyRSA L key hashed sigBytes hasher (opts_Hash h) =
  ([rsa_VerifyPKCS1v15_call key hasher hashed sigBytes],
   errLib <$> rsa_VerifyPKCS1v15 L key hasher hashed sigBytes).
Proof. reflexivity. Qed.

(** [VerifyObject] is the canonical hasher followed by [Verify]. *)
Lemma VerifyObject_bind pub obj sig :
  VerifyObject L pub obj sig =
  (r ← CanonicalHash L obj;
   match r with
   | Err err => mret (Some (errLib err))
   | Ok hash => Verify L pub hash sig
   end).
Proof.
  unfold VerifyObject, CanonicalHash.
  destruct (json_Marshal L obj) as [j|err]; cbn.
  - destruct (Verify L pub _ sig). reflexivity.
  - reflexivity.
Qed.

(** [VerifyObject] sees the object through its digest only. *)
Lemma VerifyObject_digest_only pub sig (a b : Object) :
  value (CanonicalHash L a) = value (CanonicalHash L b) ->
  value (VerifyObject L pub a sig) = value (VerifyObject L pub b sig).
Proof.
  rewrite !VerifyObject_bind. unfold value. cbn. intros ->. reflexivity.
Qed.

(** From here on the two checkers are used through the lemmas above. *)
Local Arguments verifyECDSA : simpl never.
Local Arguments verifyRSA : simpl never.

(** A run with a supported hash algorithm, step by step. *)
Ltac run_supported H :=
  apply supported_true in H;
  rewrite (Verify_supported _ _ _ H); unfold value, calls, invokes; cbn.

(** C4.  For every public key, of whatever variant, every data and every
    tagged signature whose hashAlgorithm the table does not know (any value
    but SHA-256), [Verify] fails with the unsupported-hash-algorithm error.
    It makes no call at all, so no digest function stands in for the
    missing one, and the failure comes before the check of the signature
    algorithm against the key and before the check of the key type. *)
Theorem Verify_unsupported_hash_algorithm pub data sig :
  supported (sigpb.HashAlgorithm sig) = false ->
  value (Verify L pub data sig) = Some (errUnsupportedHash 0) /\
  reason (errUnsupportedHash 0) = UnsupportedHashAlgorithm /\
  calls (Verify L pub data sig) = [] /\
  sigpb.HashAlgorithm sig <> sigpb.DigitallySigned_SHA256.
Proof.
  intros H. apply supported_false, cryptoHashLookup_None in H.
  rewrite (Verify_unsupported _ _ _ H). auto.
Qed.

(** C10.  For every public key that is neither an ECDSA nor an RSA public
    key, the nil key included, every data and every tagged signature with a
    supported hashAlgorithm, [Verify] fails with the unknown-key-type
    error; the digest is the only thing computed: no signature is decoded
    and no ECDSA or RSA check is run. *)
Theorem Verify_unknown_key_type pub data sig :
  is_ecdsa pub = false -> is_rsa pub = false ->
  supported (sigpb.HashAlgorithm sig) = true ->
  value (Verify L pub data sig) = Some (errUnknownKeyType (type_name pub)) /\
  reason (errUnknownKeyType (type_name pub)) = UnknownKeyType /\
  calls (Verify L pub data sig) = [Hash_call crypto.SHA256 data] /\
  invokes is_signature_primitive (Verify L pub data sig) = false.
Proof.
  intros He Hr H. run_supported H.
  destruct pub; try discriminate; auto.
Qed.

(** C1, amended.  For every RSA public key, every data and every tagged
    signature with a supported hashAlgorithm whose signatureAlgorithm is
    ECDSA, and likewise for every ECDSA key with signatureAlgorithm RSA,
    [Verify] fails with the algorithm-mismatch error, and the run decodes
    no signature and makes no ECDSA or RSA check: the digest of the data is
    its only call. *)
Theorem Verify_algorithm_mismatch pub data sig :
  supported (sigpb.HashAlgorithm sig) = true ->
  (is_rsa pub = true /\
   sigpb.SignatureAlgorithm sig = sigpb.DigitallySigned_ECDSA) \/
  (is_ecdsa pub = true /\
   sigpb.SignatureAlgorithm sig = sigpb.DigitallySigned_RSA) ->
  value (Verify L pub data sig) = Some errAlgoMismatch /\
  reason errAlgoMismatch = AlgorithmMismatch /\
  calls (Verify L pub data sig) = [Hash_call crypto.SHA256 data] /\
  invokes is_signature_primitive (Verify L pub data sig) = false.
Proof.
  intros H [[Hk Ha]|[Hk Ha]]; run_supported H; rewrite Ha;
    destruct pub; try discriminate; auto.
Qed.

(** C3.  For every ECDSA public key, every data and every signature byte
    sequence that decodes as the pair of integers followed by at least one
    more byte, [Verify], once the signature has come to the ECDSA checker
    (supported hashAlgorithm, signatureAlgorithm ECDSA), fails with the
    malformed-signature error, which in the program is the value
    [errVerify].  The ECDSA check is not run on the decoded pair, so the
    failure is the same when the pair alone would have passed the check
    against the recomputed digest; and [verifyECDSA] fails so on such bytes
    under every digest. *)
Theorem Verify_ECDSA_trailing_bytes key data sig rs rest :
  supported (sigpb.HashAlgorithm sig) = true ->
  sigpb.SignatureAlgorithm sig = sigpb.DigitallySigned_ECDSA ->
  asn1_Unmarshal L (sigpb.Signature sig) = Ok (rs, rest) ->
  (0 < length rest)%nat ->
  value (Verify L (ecdsa_key key) data sig) = Some errVerify /\
  calls (Verify L (ecdsa_key key) data sig) =
    [Hash_call crypto.SHA256 data; asn1_Unmarshal_call (sigpb.Signature sig)] /\
  invokes is_ecdsa_Verify (Verify L (ecdsa_key key) data sig) = false /\
  (forall hashed,
     verifyECDSA L key hashed (sigpb.Signature sig) =
     ([asn1_Unmarshal_call (sigpb.Signature sig)], Some errVerify)).
Proof.
  intros H Ha Hd Hrest.
  assert (Hne : rest <> []) by (intros ->; cbn in Hrest; lia).
  run_supported H. rewrite Ha. cbn.
  rewrite (verifyECDSA_trailing _ _ _ _ _ Hd Hne). cbn.
  repeat split. intros hashed. apply (verifyECDSA_trailing _ _ _ _ _ Hd Hne).
Qed.

(** [Verify] returns nil exactly when the specification's gates all let
    the signature through. *)
Lemma Verify_nil_iff_accepts pub data sig :
  value (Verify L pub data sig) = None <-> accepts L pub data sig = true.
Proof.
  unfold accepts.
  destruct (cryptoHashLookup !! sigpb.HashAlgorithm sig) as [hasher|] eqn:E.
  - apply cryptoHashLookup_Some in E as [E ->].
    rewrite (Verify_supported _ _ _ E). unfold value.
    destruct pub as [key|key|T|]; cbn; try (split; discriminate).
    + destruct (sigpb.SignatureAlgorithm sig =? sigpb.DigitallySigned_ECDSA);
        cbn; [|split; discriminate].
      destruct (asn1_Unmarshal L (sigpb.Signature sig)) as [[rs rest]|err] eqn:D.
      * destruct rest as [|b rest].
        -- rewrite (verifyECDSA_checked _ _ _ _ D). cbn.
           destruct (ecdsa_Verify L key _ (R rs) (S rs)); split; congruence.
        -- rewrite (verifyECDSA_trailing _ _ _ _ (b :: rest) D); [|discriminate].
           cbn. split; discriminate.
      * rewrite (verifyECDSA_undecodable _ _ _ _ D). cbn. split; discriminate.
    + destruct (sigpb.SignatureAlgorithm sig =? sigpb.DigitallySigned_RSA);
        cbn; [|split; discriminate].
      rewrite verifyRSA_Hash. cbn.
      destruct (rsa_VerifyPKCS1v15 L key crypto.SHA256 _ (sigpb.Signature sig));
        cbn; split; congruence.
  - apply cryptoHashLookup_None in E. rewrite (Verify_unsupported _ _ _ E).
    cbn. split; discriminate.
Qed.

(** The error [Verify] returns tells which gate stopped the run. *)
Lemma Verify_error_names_its_gate pub data sig e :
  value (Verify L pub data sig) = Some e ->
  match reason e with
  | UnsupportedHashAlgorithm =>
    supported (sigpb.HashAlgorithm sig) = false
  | AlgorithmMismatch =>
    supported (sigpb.HashAlgorithm sig) = true /\
    ((is_ecdsa pub = true /\
      sigpb.SignatureAlgorithm sig <> sigpb.DigitallySigned_ECDSA) \/
     (is_rsa pub = true /\
      sigpb.SignatureAlgorithm sig <> sigpb.DigitallySigned_RSA))
  | UnknownKeyType =>
    supported (sigpb.HashAlgorithm sig) = true /\
    is_ecdsa pub = false /\ is_rsa pub = false
  | SignatureRejected =>
    supported (sigpb.HashAlgorithm sig) = true /\ is_ecdsa pub = true /\
    sigpb.SignatureAlgorithm sig = sigpb.DigitallySigned_ECDSA
  | LibraryFailure =>
    supported (sigpb.HashAlgorithm sig) = true /\ is_rsa pub = true /\
    sigpb.SignatureAlgorithm sig = sigpb.DigitallySigned_RSA
  | _ => False
  end.
Proof.
  destruct (supported (sigpb.HashAlgorithm sig)) eqn:H.
  - pose proof H as H'. run_supported H'.
    destruct pub as [key|key|T|]; cbn.
    + destruct (Z.eqb_spec (sigpb.SignatureAlgorithm sig) sigpb.DigitallySigned_ECDSA)
        as [Ha|Ha]; cbn.
      * destruct (asn1_Unmarshal L (sigpb.Signature sig)) as [[rs rest]|err] eqn:D.
        -- destruct rest as [|b rest].
           ++ rewrite (verifyECDSA_checked _ _ _ _ D). cbn.
              destruct (ecdsa_Verify L key _ (R rs) (S rs)); intros [= <-]; cbn; auto.
           ++ rewrite (verifyECDSA_trailing _ _ _ _ (b :: rest) D); [|discriminate].
              intros [= <-]; cbn; auto.
        -- rewrite (verifyECDSA_undecodable _ _ _ _ D). intros [= <-]; cbn; auto.
      * intros [= <-]; cbn; auto.
    + destruct (Z.eqb_spec (sigpb.SignatureAlgorithm sig) sigpb.DigitallySigned_RSA)
        as [Ha|Ha]; cbn.
      * rewrite verifyRSA_Hash. cbn.
        destruct (rsa_VerifyPKCS1v15 L key crypto.SHA256 _ (sigpb.Signature sig));
          cbn; [|discriminate].
        intros [= <-]; cbn; auto.
      * intros [= <-]; cbn; auto.
    + intros [= <-]; cbn; auto.
    + intros [= <-]; cbn; auto.
  - pose proof H as H'. apply supported_false, cryptoHashLookup_None in H'.
    rewrite (Verify_unsupported _ _ _ H'). cbn. intros [= <-]. reflexivity.
Qed.

(** C2, amended.  Every failure of [Verify] is returned to the caller as
    an error value: the result is nil only when every gate of the
    specification lets the signature through, and an error otherwise, and
    the error tells the gates apart (hash algorithm, algorithm binding, key
    type, ECDSA signature, RSA signature).  For an ECDSA key, with a supported hashAlgorithm and signatureAlgorithm
    ECDSA, the error for signature bytes that fail to decode or carry
    trailing data and the error for a signature that decodes and is
    rejected by the ECDSA check are one and the same value, [errVerify]. *)
Theorem Verify_failure_is_error_and_ECDSA_errors_coincide :
  (forall pub data sig,
     (value (Verify L pub data sig) = None <-> accepts L pub data sig = true) /\
     (accepts L pub data sig = false ->
      exists e, value (Verify L pub data sig) = Some e)) /\
  (forall pub data sig e,
     value (Verify L pub data sig) = Some e ->
     match reason e with
     | UnsupportedHashAlgorithm =>
       supported (sigpb.HashAlgorithm sig) = false
     | AlgorithmMismatch =>
       supported (sigpb.HashAlgorithm sig) = true /\
       ((is_ecdsa pub = true /\
         sigpb.SignatureAlgorithm sig <> sigpb.DigitallySigned_ECDSA) \/
        (is_rsa pub = true /\
         sigpb.SignatureAlgorithm sig <> sigpb.DigitallySigned_RSA))
     | UnknownKeyType =>
       supported (sigpb.HashAlgorithm sig) = true /\
       is_ecdsa pub = false /\ is_rsa pub = false
     | SignatureRejected =>
       supported (sigpb.HashAlgorithm sig) = true /\ is_ecdsa pub = true /\
       sigpb.SignatureAlgorithm sig = sigpb.DigitallySigned_ECDSA
     | LibraryFailure =>
       supported (sigpb.HashAlgorithm sig) = true /\ is_rsa pub = true /\
       sigpb.SignatureAlgorithm sig = sigpb.DigitallySigned_RSA
     | _ => False
     end) /\
  (forall key data sig,
     supported (sigpb.HashAlgorithm sig) = true ->
     sigpb.SignatureAlgorithm sig = sigpb.DigitallySigned_ECDSA ->
     (malformed L (sigpb.Signature sig) = true ->
      value (Verify L (ecdsa_key key) data sig) = Some errVerify) /\
     (forall rs,
        asn1_Unmarshal L (sigpb.Signature sig) = Ok (rs, []) ->
        ecdsa_Verify L key (hash_Sum L crypto.SHA256 data) (R rs) (S rs) = false ->
        value (Verify L (ecdsa_key key) data sig) = Some errVerify)).
Proof.
  split; [|split].
  - intros pub data sig. split; [apply Verify_nil_iff_accepts|].
    intros Hacc.
    destruct (value (Verify L pub data sig)) as [e|] eqn:V; [eauto|].
    apply Verify_nil_iff_accepts in V. congruence.
  - apply Verify_error_names_its_gate.
  - intros key data sig H Ha. split.
    + unfold malformed. intros Hm. run_supported H. rewrite Ha. cbn.
      destruct (asn1_Unmarshal L (sigpb.Signature sig)) as [[rs rest]|err] eqn:D.
      * destruct rest as [|b rest]; [discriminate|].
        rewrite (verifyECDSA_trailing _ _ _ _ (b :: rest) D); [|discriminate].
        reflexivity.
      * rewrite (verifyECDSA_undecodable _ _ _ _ D). reflexivity.
    + intros rs D Hv. run_supported H. rewrite Ha. cbn.
      rewrite (verifyECDSA_checked _ _ _ _ D). cbn. now rewrite Hv.
Qed.

(** No run of [Verify] calls the PSS check. *)
Lemma Verify_never_PSS pub data sig :
  invokes is_VerifyPSS (Verify L pub data sig) = false.
Proof.
  destruct (supported (sigpb.HashAlgorithm sig)) eqn:H.
  - run_supported H.
    destruct pub as [key|key|T|]; cbn; try reflexivity.
    + destruct (sigpb.SignatureAlgorithm sig =? sigpb.DigitallySigned_ECDSA);
        cbn; [|reflexivity].
      destruct (asn1_Unmarshal L (sigpb.Signature sig)) as [[rs rest]|err] eqn:D.
      * destruct rest as [|b rest].
        -- now rewrite (verifyECDSA_checked _ _ _ _ D).
        -- now rewrite (verifyECDSA_trailing _ _ _ _ (b :: rest) D).
      * now rewrite (verifyECDSA_undecodable _ _ _ _ D).
    + destruct (sigpb.SignatureAlgorithm sig =? sigpb.DigitallySigned_RSA);
        reflexivity.
  - apply supported_false, cryptoHashLookup_None in H.
    now rewrite (Verify_unsupported _ _ _ H).
Qed.

(** C7.  For every RSA public key, every data and every tagged signature
    that reach the RSA branch of [Verify] (supported hashAlgorithm,
    signatureAlgorithm RSA), the options [Verify] hands to [verifyRSA] are
    the resolved hash and not PSS options, so the check made is the
    PKCS#1 v1.5 one and its answer is the answer of [Verify]; and no run of
    [Verify], on any input, reaches the PSS check. *)
Theorem Verify_RSA_is_PKCS1v15 key data sig :
  supported (sigpb.HashAlgorithm sig) = true ->
  sigpb.SignatureAlgorithm sig = sigpb.DigitallySigned_RSA ->
  let digest := hash_Sum L crypto.SHA256 data in
  Verify L (rsa_key key) data sig =
    (d ← call (Hash_call crypto.SHA256 data) digest;
     verifyRSA L key d (sigpb.Signature sig) crypto.SHA256
       (opts_Hash crypto.SHA256)) /\
  calls (Verify L (rsa_key key) data sig) =
    [Hash_call crypto.SHA256 data;
     rsa_VerifyPKCS1v15_call key crypto.SHA256 digest (sigpb.Signature sig)] /\
  value (Verify L (rsa_key key) data sig) =
    errLib <$> rsa_VerifyPKCS1v15 L key crypto.SHA256 digest (sigpb.Signature sig) /\
  (forall pub' data' sig',
     invokes is_VerifyPSS (Verify L pub' data' sig') = false).
Proof.
  intros H Ha digest. split; [|split; [|split]].
  - apply supported_true in H. rewrite (Verify_supported _ _ _ H), Ha. reflexivity.
  - run_supported H. rewrite Ha. reflexivity.
  - run_supported H. rewrite Ha. reflexivity.
  - apply Verify_never_PSS.
Qed.

(** C5.  For every public key, every tagged signature and every object the
    canonical hasher accepts, with digest [d], [VerifyObject] on the object
    returns exactly what [Verify] returns on [d], and its run is the run of
    the hasher followed by the run of [Verify] on [d]. *)
Theorem VerifyObject_is_hash_then_Verify pub obj sig d :
  value (CanonicalHash L obj) = Ok d ->
  value (VerifyObject L pub obj sig) = value (Verify L pub d sig) /\
  calls (VerifyObject L pub obj sig) =
    calls (CanonicalHash L obj) ++ calls (Verify L pub d sig).
Proof.
  unfold CanonicalHash, VerifyObject, value, calls.
  destruct (json_Marshal L obj) as [j|e]; cbn; [|discriminate].
  intros [= <-]. auto.
Qed.

(** C8.  For every public key and tagged signature, if the object cannot
    be reduced to a digest because its serialization fails, [VerifyObject]
    returns the serializer's error.  The serializer is the only call of
    the run: nothing is hashed, [Verify] is not entered and no
    cryptographic primitive is invoked.  [VerifyObject] itself has no loop,
    so the run ends once the serializer has returned. *)
Theorem VerifyObject_unhashable pub obj sig err :
  value (CanonicalHash L obj) = Err err ->
  VerifyObject L pub obj sig = ([json_Marshal_call], Some (errLib err)) /\
  invokes is_crypto_primitive (VerifyObject L pub obj sig) = false /\
  json_Marshal L obj = Err err.
Proof.
  unfold CanonicalHash, VerifyObject, value, invokes, calls.
  destruct (json_Marshal L obj) as [j|e]; cbn; [discriminate|].
  intros [= ->]. auto.
Qed.

(** C9.  For every input text, [PublicKeyFromPEM] decodes once.  It fails
    with the could-not-decode error (MalformedKeyEncoding) when no block is
    found; with the extra-data error (TrailingData) when a block is found
    and bytes remain after it; with the unable-to-parse error
    (UnsupportedKeyFormat) when the bytes of the block do not parse as a
    public-key-info structure; and it returns the parsed key otherwise.
    No run decodes a second block. *)
Theorem PublicKeyFromPEM_outcomes pemEncodedKey :
  let data := list_byte_of_string pemEncodedKey in
  let run := PublicKeyFromPEM L pemEncodedKey in
  (forall rest,
     pem_Decode L data = (None, rest) ->
     run = ([pem_Decode_call data], inr errCouldNotDecodePEM)) /\
  (forall block rest,
     pem_Decode L data = (Some block, rest) -> (0 < length rest)%nat ->
     run = ([pem_Decode_call data], inr errExtraData)) /\
  (forall block err,
     pem_Decode L data = (Some block, []) ->
     x509_ParsePKIXPublicKey L (pem.Bytes block) = Err err ->
     run = ([pem_Decode_call data; ParsePKIXPublicKey_call (pem.Bytes block)],
            inr (errUnableToParse err))) /\
  (forall block parsedKey,
     pem_Decode L data = (Some block, []) ->
     x509_ParsePKIXPublicKey L (pem.Bytes block) = Ok parsedKey ->
     run = ([pem_Decode_call data; ParsePKIXPublicKey_call (pem.Bytes block)],
            inl parsedKey)) /\
  length (filter (fun c => is_pem_Decode c = true) (calls run)) = 1%nat /\
  reason errCouldNotDecodePEM = MalformedKeyEncoding /\
  reason errExtraData = TrailingData /\
  (forall err, reason (errUnableToParse err) = UnsupportedKeyFormat).
Proof.
  intros data run. subst run data. unfold PublicKeyFromPEM.
  repeat split.
  - intros rest H. rewrite H. reflexivity.
  - intros block rest H Hrest. rewrite H.
    destruct rest as [|b rest]; [cbn in Hrest; lia | reflexivity].
  - intros block err H Hp. rewrite H. cbn. rewrite Hp. reflexivity.
  - intros block key H Hp. rewrite H. cbn. rewrite Hp. reflexivity.
  - destruct (pem_Decode L (list_byte_of_string pemEncodedKey))
      as [[block|] rest]; [|reflexivity].
    destruct rest as [|b rest]; [|reflexivity].
    cbn. destruct (x509_ParsePKIXPublicKey L (pem.Bytes block)); reflexivity.
Qed.

End Properties.

(** ** Key loading *)

Section KeyLoading.
Context {Object : Type} (L : Library Object).

(** [PublicKeyFromPEM] by the cases of the decoder's and the parser's
    answers. *)
Lemma PublicKeyFromPEM_cases pemEncodedKey :
  let data := list_byte_of_string pemEncodedKey in
  PublicKeyFromPEM L pemEncodedKey =
  match pem_Decode L data with
  | (None, _) => ([pem_Decode_call data], inr errCouldNotDecodePEM)
  | (Some block, []) =>
    ([pem_Decode_call data; ParsePKIXPublicKey_call (pem.Bytes block)],
     match x509_ParsePKIXPublicKey L (pem.Bytes block) with
     | Ok parsedKey => inl parsedKey
     | Err err => inr (errUnableToParse err)
     end)
  | (Some block, _ :: _) => ([pem_Decode_call data], inr errExtraData)
  end.
Proof.
  intros data. subst data. unfold PublicKeyFromPEM.
  destruct (pem_Decode L (list_byte_of_string pemEncodedKey))
    as [[block|] rest]; [|reflexivity].
  destruct rest as [|b rest]; [|reflexivity].
  cbn. destruct (x509_ParsePKIXPublicKey L (pem.Bytes block)); reflexivity.
Qed.

(** X1.  When the key file cannot be read, [PublicKeyFromFile] returns the
    failed-to-read error, which carries the file name and the reader's
    error; the read is the only call, nothing is decoded or parsed. *)
Theorem PublicKeyFromFile_unreadable keyFile err :
  ioutil_ReadFile L keyFile = Err err ->
  PublicKeyFromFile L keyFile =
    ([ReadFile_call keyFile], inr (errFailedToRead keyFile err)).
Proof.
  intros H. unfold PublicKeyFromFile. cbn. rewrite H. reflexivity.
Qed.

(** X2.  When the key file is read, [PublicKeyFromFile] is the read
    followed by [PublicKeyFromPEM] on the contents, and the bytes handed to
    the PEM decoder are exactly the bytes read: the passage through a Go
    string changes nothing. *)
Theorem PublicKeyFromFile_decodes_contents keyFile pemData :
  ioutil_ReadFile L keyFile = Ok pemData ->
  value (PublicKeyFromFile L keyFile) =
    value (PublicKeyFromPEM L (string_of_list_byte pemData)) /\
  calls (PublicKeyFromFile L keyFile) =
    ReadFile_call keyFile :: calls (PublicKeyFromPEM L (string_of_list_byte pemData)) /\
  exists tl,
    calls (PublicKeyFromFile L keyFile) =
      ReadFile_call keyFile :: pem_Decode_call pemData :: tl.
Proof.
  intros H. unfold PublicKeyFromFile, value, calls. cbn. rewrite H.
  split; [reflexivity|]. split; [reflexivity|].
  rewrite PublicKeyFromPEM_cases, list_byte_of_string_of_list_byte.
  destruct (pem_Decode L pemData) as [[block|] [|b rest]]; cbn; eauto.
Qed.

(** X3.  [PublicKeyFromPEM] returns a key exactly when the decoder finds a
    block with nothing after it and the bytes of that block parse; the key
    is the parser's. *)
Theorem PublicKeyFromPEM_key_iff pemEncodedKey parsedKey :
  value (PublicKeyFromPEM L pemEncodedKey) = inl parsedKey <->
  exists block,
    pem_Decode L (list_byte_of_string pemEncodedKey) = (Some block, []) /\
    x509_ParsePKIXPublicKey L (pem.Bytes block) = Ok parsedKey.
Proof.
  rewrite PublicKeyFromPEM_cases. unfold value.
  destruct (pem_Decode L (list_byte_of_string pemEncodedKey))
    as [[block|] rest] eqn:D; cbn.
  - destruct rest as [|b rest]; cbn.
    + destruct (x509_ParsePKIXPublicKey L (pem.Bytes block)) as [k|e] eqn:P; cbn.
      * split.
        -- intros [= <-]. exists block. auto.
        -- intros (block' & [= <-] & P'). congruence.
      * split; [discriminate|]. intros (block' & [= <-] & P'). congruence.
    + split; [discriminate|]. intros (block' & [=] & _).
  - split; [discriminate|]. intros (block' & [=] & _).
Qed.


End KeyLoading.

(** X5.  [PublicKeyFromPEM] never looks at the type line of the block: two
    libraries with the same parser whose decoders return, for the same
    text, the same rest and blocks with the same bytes give the same result,
    whatever the types of the two blocks are. *)
Theorem PublicKeyFromPEM_ignores_block_type
    {Object : Type} (L L' : Library Object) pemEncodedKey block block' rest :
  x509_ParsePKIXPublicKey L = x509_ParsePKIXPublicKey L' ->
  pem_Decode L (list_byte_of_string pemEncodedKey) = (Some block, rest) ->
  pem_Decode L' (list_byte_of_string pemEncodedKey) = (Some block', rest) ->
  pem.Bytes block = pem.Bytes block' ->
  PublicKeyFromPEM L pemEncodedKey = PublicKeyFromPEM L' pemEncodedKey.
Proof.
  intros Hp D D' Hb. rewrite !PublicKeyFromPEM_cases. cbn.
  rewrite D, D', Hp, Hb. reflexivity.
Qed.

(** ** The ECDSA checker and the runs of [Verify] *)

Section Runs.
Context {Object : Type} (L : Library Object).

Implicit Types (pub : PublicKey) (data : bytes) (sig : sigpb.DigitallySigned).

(** [verifyECDSA] by the cases of the decoder's answer. *)
Lemma verifyECDSA_cases key hashed sigBytes :
  verifyECDSA L key hashed sigBytes =
  match asn1_Unmarshal L sigBytes with
  | Ok (rs, []) =>
    ([asn1_Unmarshal_call sigBytes; ecdsa_Verify_call key hashed (R rs) (S rs)],
     if ecdsa_Verify L key hashed (R rs) (S rs) then None else Some errVerify)
  | _ => ([asn1_Unmarshal_call sigBytes], Some errVerify)
  end.
Proof.
  destruct (asn1_Unmarshal L sigBytes) as [[rs [|b rest]]|err] eqn:D.
  - apply verifyECDSA_checked, D.
  - apply (verifyECDSA_trailing L key hashed sigBytes rs (b :: rest) D).
    discriminate.
  - apply (verifyECDSA_undecodable L key hashed sigBytes err D).
Qed.

(** [Verify] by the cases of its gates. *)
Lemma Verify_cases pub data sig :
  Verify L pub data sig =
  if negb (supported (sigpb.HashAlgorithm sig))
  then ([], Some (errUnsupportedHash 0))
  else
    let digest := hash_Sum L crypto.SHA256 data in
    let h := Hash_call crypto.SHA256 data in
    match pub with
    | ecdsa_key key =>
      if bound pub sig
      then (h :: calls (verifyECDSA L key digest (sigpb.Signature sig)),
            value (verifyECDSA L key digest (sigpb.Signature sig)))
      else ([h], Some errAlgoMismatch)
    | rsa_key key =>
      if bound pub sig
      then ([h; rsa_VerifyPKCS1v15_call key crypto.SHA256 digest
                  (sigpb.Signature sig)],
            errLib <$> rsa_VerifyPKCS1v15 L key crypto.SHA256 digest
                         (sigpb.Signature sig))
      else ([h], Some errAlgoMismatch)
    | _ => ([h], Some (errUnknownKeyType (type_name pub)))
    end.
Proof.
  destruct (supported (sigpb.HashAlgorithm sig)) eqn:H; cbn [negb].
  - apply supported_true in H. rewrite (Verify_supported L pub data sig H).
    destruct pub as [key|key|T|]; cbn [bound]; try reflexivity.
    + destruct (sigpb.SignatureAlgorithm sig =? sigpb.DigitallySigned_ECDSA);
        reflexivity.
    + destruct (sigpb.SignatureAlgorithm sig =? sigpb.DigitallySigned_RSA);
        reflexivity.
  - apply supported_false, cryptoHashLookup_None in H.
    apply Verify_unsupported, H.
Qed.

(** X6.  [verifyECDSA] has two answers only, nil and [errVerify], and it
    answers nil exactly when the signature bytes decode with nothing left
    over and the ECDSA check of the decoded pair against the given digest
    passes. *)
Theorem verifyECDSA_nil_iff key hashed sigBytes :
  (value (verifyECDSA L key hashed sigBytes) = None \/
   value (verifyECDSA L key hashed sigBytes) = Some errVerify) /\
  (value (verifyECDSA L key hashed sigBytes) = None <->
   exists rs,
     asn1_Unmarshal L sigBytes = Ok (rs, []) /\
     ecdsa_Verify L key hashed (R rs) (S rs) = true).
Proof.
  rewrite verifyECDSA_cases. unfold value.
  destruct (asn1_Unmarshal L sigBytes) as [[rs [|b rest]]|err] eqn:D; cbn.
  - destruct (ecdsa_Verify L key hashed (R rs) (S rs)) eqn:V; split; auto.
    + split; [eauto|reflexivity].
    + split; [discriminate|]. intros (rs' & [= <-] & V'). congruence.
  - split; [auto|]. split; [discriminate|]. intros (rs' & [=] & _).
  - split; [auto|]. split; [discriminate|]. intros (rs' & [=] & _).
Qed.

(** X7.  [verifyECDSA] runs the ECDSA check only on a signature that
    decoded in full: a check in its run is the check of the decoded pair
    against the digest it was given, under the key it was given; bytes that
    do not decode, or decode with a rest, are never checked. *)
Theorem verifyECDSA_checks_whole_decodings key hashed sigBytes :
  (forall c,
     In c (calls (verifyECDSA L key hashed sigBytes)) ->
     is_ecdsa_Verify c = true ->
     exists rs,
       asn1_Unmarshal L sigBytes = Ok (rs, []) /\
       c = ecdsa_Verify_call key hashed (R rs) (S rs)) /\
  invokes is_ecdsa_Verify (verifyECDSA L key hashed sigBytes) =
    negb (malformed L sigBytes).
Proof.
  rewrite verifyECDSA_cases. unfold invokes, calls, malformed.
  destruct (asn1_Unmarshal L sigBytes) as [[rs [|b rest]]|err] eqn:D; cbn.
  - split; [|reflexivity].
    intros c [<-|[<-|[]]]; [discriminate|]. eauto.
  - split; [|reflexivity]. intros c [<-|[]]; discriminate.
  - split; [|reflexivity]. intros c [<-|[]]; discriminate.
Qed.

(** The calls of a run of [Verify], one by one. *)
Lemma Verify_calls_on_digest pub data sig :
  Forall (on_digest_of L data (sigpb.Signature sig))
    (calls (Verify L pub data sig)).
Proof.
  rewrite Verify_cases.
  destruct (supported (sigpb.HashAlgorithm sig)); cbn [negb]; [|constructor].
  cbv zeta.
  destruct pub as [key|key|T|]; cbn [bound];
    try destruct (sigpb.SignatureAlgorithm sig =? _);
    unfold calls; cbn [fst];
    try (repeat constructor; cbn; auto; fail).
  constructor; [cbn; auto|].
  rewrite verifyECDSA_cases.
  destruct (asn1_Unmarshal L (sigpb.Signature sig)) as [[rs [|b rest]]|err];
    cbn; repeat constructor.
Qed.

(** X8.  Every call in a run of [Verify] belongs to the verification of the
    signature bytes over the data under SHA-256: the digest is the SHA-256
    digest of the data as given, the bytes decoded are the signature's, and
    every ECDSA or RSA check is made on that digest and never on the data
    or on another digest. *)
Theorem Verify_calls_are_on_the_digest pub data sig :
  Forall (on_digest_of L data (sigpb.Signature sig))
    (calls (Verify L pub data sig)).
Proof. apply Verify_calls_on_digest. Qed.



(** X9.  A run of [Verify] decodes a signature or makes an ECDSA or RSA
    check exactly when the hash algorithm is supported and the signature
    algorithm is the one of the key's family. *)
Theorem Verify_signature_primitive_iff_bound pub data sig :
  invokes is_signature_primitive (Verify L pub data sig) =
  supported (sigpb.HashAlgorithm sig) && bound pub sig.
Proof.
  rewrite Verify_cases. unfold invokes.
  destruct (supported (sigpb.HashAlgorithm sig)); cbn [negb andb]; [|reflexivity].
  cbv zeta.
  destruct pub as [key|key|T|]; cbn [bound andb];
    try destruct (sigpb.SignatureAlgorithm sig =? _);
    unfold calls; cbn [fst]; reflexivity.
Qed.

(** X10.  The unsupported-hash-algorithm error never names the algorithm
    that was asked for: whenever [Verify] returns it, the value printed in
    it is 0, the zero value of the hash type, and the algorithm of the
    signature is one the table does not have. *)
Theorem Verify_unsupported_error_prints_zero pub data sig hasher :
  value (Verify L pub data sig) = Some (errUnsupportedHash hasher) ->
  hasher = 0 /\ supported (sigpb.HashAlgorithm sig) = false.
Proof.
  rewrite Verify_cases. unfold value.
  destruct (supported (sigpb.HashAlgorithm sig)); cbn [negb].
  - cbv zeta.
    destruct pub as [key|key|T|]; cbn [bound];
    try destruct (sigpb.SignatureAlgorithm sig =? _);
      cbn [snd]; try discriminate.
    + rewrite verifyECDSA_cases.
      destruct (asn1_Unmarshal L (sigpb.Signature sig)) as [[rs [|b rest]]|err];
        cbn; try discriminate.
      destruct (ecdsa_Verify L key _ (R rs) (S rs)); discriminate.
    + destruct (rsa_VerifyPKCS1v15 L key crypto.SHA256 _ (sigpb.Signature sig));
        discriminate.
  - cbn. intros [= <-]. auto.
Qed.

(** X11.  [Verify] sees the data through its digest only: two data with
    the same SHA-256 digest get the same answer, for every key and every
    tagged signature. *)
Theorem Verify_depends_on_digest pub data data' sig :
  hash_Sum L crypto.SHA256 data = hash_Sum L crypto.SHA256 data' ->
  value (Verify L pub data sig) = value (Verify L pub data' sig).
Proof.
  intros H. rewrite !Verify_cases. rewrite H.
  destruct (supported (sigpb.HashAlgorithm sig)); cbn [negb]; [|reflexivity].
  cbv zeta.
  destruct pub as [key|key|T|]; cbn [bound];
    try destruct (sigpb.SignatureAlgorithm sig =? _); reflexivity.
Qed.

(** X12.  [VerifyObject] checks the signature over the SHA-256 digest of
    the object hash, not over the object hash itself: when the object
    serializes to [j], the object hasher is given a string whose bytes are
    [j], and every later call of the run belongs to the verification of the
    signature bytes over the object hash under SHA-256. *)
Theorem VerifyObject_checks_digest_of_object_hash pub obj sig j :
  json_Marshal L obj = Ok j ->
  let hash := objecthash_CommonJSONHash L (string_of_list_byte j) in
  list_byte_of_string (string_of_list_byte j) = j /\
  exists tl,
    calls (VerifyObject L pub obj sig) =
      json_Marshal_call :: CommonJSONHash_call (string_of_list_byte j) :: tl /\
    Forall (on_digest_of L hash (sigpb.Signature sig)) tl.
Proof.
  intros H hash. split; [apply list_byte_of_string_of_list_byte|].
  exists (calls (Verify L pub hash sig)). split.
  - unfold VerifyObject, calls. cbn. rewrite H. reflexivity.
  - apply Verify_calls_on_digest.
Qed.

(** X13.  [VerifyObject] returns nil exactly when the object serializes and
    the signature passes every gate of [Verify] over the object hash. *)
Theorem VerifyObject_nil_iff pub obj sig :
  value (VerifyObject L pub obj sig) = None <->
  exists j,
    json_Marshal L obj = Ok j /\
    accepts L pub (objecthash_CommonJSONHash L (string_of_list_byte j)) sig
      = true.
Proof.
  rewrite VerifyObject_bind. unfold CanonicalHash, value.
  destruct (json_Marshal L obj) as [j|err] eqn:M; cbn.
  - change ((Verify L pub (objecthash_CommonJSONHash L (string_of_list_byte j)) sig).2)
      with (value (Verify L pub (objecthash_CommonJSONHash L (string_of_list_byte j)) sig)).
    rewrite Verify_nil_iff_accepts. split.
    + eauto.
    + intros (j' & [= <-] & A). exact A.
  - split; [discriminate|]. intros (j' & [=] & _).
Qed.

(** X14.  Two objects whose serializations have the same object hash get
    the same answer from [VerifyObject], for every key and every tagged
    signature, also when the serializations differ; and from the digest on,
    the two runs make the same calls. *)
Theorem VerifyObject_equal_hash_equal_answer pub sig (a b : Object) ja jb :
  json_Marshal L a = Ok ja ->
  json_Marshal L b = Ok jb ->
  objecthash_CommonJSONHash L (string_of_list_byte ja) =
  objecthash_CommonJSONHash L (string_of_list_byte jb) ->
  value (VerifyObject L pub a sig) = value (VerifyObject L pub b sig) /\
  drop 2 (calls (VerifyObject L pub a sig)) =
  drop 2 (calls (VerifyObject L pub b sig)).
Proof.
  intros Ha Hb Hh. unfold VerifyObject, value, calls. cbn.
  rewrite Ha, Hb. cbn. rewrite Hh. auto.
Qed.

End Runs.

(** ** The theorems at concrete inputs *)

Module Examples.
Import Demo.

(** C4 at a DSA key and hash algorithm 0. *)
Lemma Verify_unsupported_hash_algorithm_witness :
  supported 0 = false /\
  value (Verify demo (other_key "*dsa.PublicKey") some_data (tagged 0 RSA []))
    = Some (errUnsupportedHash 0) /\
  calls (Verify demo (other_key "*dsa.PublicKey") some_data (tagged 0 RSA []))
    = [].
Proof.
  split; [vm_compute; reflexivity|].
  assert (H : supported (sigpb.HashAlgorithm (tagged 0 RSA [])) = false)
    by (vm_compute; reflexivity).
  destruct (Verify_unsupported_hash_algorithm demo
              (other_key "*dsa.PublicKey") some_data (tagged 0 RSA []) H)
    as (Hv & _ & Hc & _).
  split; [exact Hv | exact Hc].
Defined.

(** C10 at the nil key. *)
Lemma Verify_unknown_key_type_witness :
  is_ecdsa nil_key = false /\ is_rsa nil_key = false /\
  supported SHA256 = true /\
  value (Verify demo nil_key some_data (tagged SHA256 ECDSA der_7_4))
    = Some (errUnknownKeyType "<nil>") /\
  invokes is_signature_primitive
    (Verify demo nil_key some_data (tagged SHA256 ECDSA der_7_4)) = false.
Proof.
  do 3 (split; [vm_compute; reflexivity|]).
  assert (H : supported (sigpb.HashAlgorithm (tagged SHA256 ECDSA der_7_4)) = true)
    by (vm_compute; reflexivity).
  destruct (Verify_unknown_key_type demo nil_key some_data
              (tagged SHA256 ECDSA der_7_4) eq_refl eq_refl H)
    as (Hv & _ & _ & Hi).
  split; [exact Hv | exact Hi].
Defined.

(** C1 as stated fails: an RSA key and a signature tagged ECDSA, whose
    hash algorithm is 0.  [Verify] stops at the hash-algorithm table and
    returns the unsupported-hash-algorithm error, not the mismatch error. *)
Lemma Verify_mismatch_needs_supported_hash :
  is_rsa (rsa_key an_rsa_key) = true /\
  sigpb.SignatureAlgorithm (tagged 0 ECDSA der_7_4) = sigpb.DigitallySigned_ECDSA /\
  value (Verify demo (rsa_key an_rsa_key) some_data (tagged 0 ECDSA der_7_4))
    = Some (errUnsupportedHash 0) /\
  value (Verify demo (rsa_key an_rsa_key) some_data (tagged 0 ECDSA der_7_4))
    <> Some errAlgoMismatch.
Proof.
  repeat split; try (vm_compute; reflexivity).
  vm_compute. discriminate.
Qed.

(** C1, amended, at an RSA key with a signature tagged ECDSA and SHA-256. *)
Lemma Verify_algorithm_mismatch_witness :
  supported SHA256 = true /\
  is_rsa (rsa_key an_rsa_key) = true /\
  value (Verify demo (rsa_key an_rsa_key) some_data (tagged SHA256 ECDSA der_7_4))
    = Some errAlgoMismatch /\
  invokes is_signature_primitive
    (Verify demo (rsa_key an_rsa_key) some_data (tagged SHA256 ECDSA der_7_4))
    = false.
Proof.
  do 2 (split; [vm_compute; reflexivity|]).
  assert (H : supported (sigpb.HashAlgorithm (tagged SHA256 ECDSA der_7_4)) = true)
    by (vm_compute; reflexivity).
  destruct (Verify_algorithm_mismatch demo (rsa_key an_rsa_key) some_data
              (tagged SHA256 ECDSA der_7_4) H (or_introl (conj eq_refl eq_refl)))
    as (Hv & _ & _ & Hi).
  split; [exact Hv | exact Hi].
Defined.

(** C3 at a signature whose first eight bytes alone pass the check of the
    stand-in library. *)
Lemma Verify_ECDSA_trailing_bytes_witness :
  supported SHA256 = true /\
  asn1_Unmarshal demo (der_7_4 ++ [x00]) = Ok ({| R := 7; S := 4 |}, [x00]) /\
  ecdsa_Verify demo an_ecdsa_key (hash_Sum demo crypto.SHA256 some_data) 7 4
    = true /\
  value (Verify demo (ecdsa_key an_ecdsa_key) some_data (tagged SHA256 ECDSA der_7_4))
    = None /\
  value (Verify demo (ecdsa_key an_ecdsa_key) some_data
           (tagged SHA256 ECDSA (der_7_4 ++ [x00])))
    = Some errVerify /\
  invokes is_ecdsa_Verify
    (Verify demo (ecdsa_key an_ecdsa_key) some_data
       (tagged SHA256 ECDSA (der_7_4 ++ [x00]))) = false.
Proof.
  do 4 (split; [vm_compute; reflexivity|]).
  assert (H : supported (sigpb.HashAlgorithm
                           (tagged SHA256 ECDSA (der_7_4 ++ [x00]))) = true)
    by (vm_compute; reflexivity).
  assert (D : asn1_Unmarshal demo
                (sigpb.Signature (tagged SHA256 ECDSA (der_7_4 ++ [x00]))) =
              Ok ({| R := 7; S := 4 |}, [x00]))
    by (vm_compute; reflexivity).
  assert (N : (0 < length [x00])%nat) by (simpl; lia).
  destruct (Verify_ECDSA_trailing_bytes demo an_ecdsa_key some_data
              (tagged SHA256 ECDSA (der_7_4 ++ [x00])) {| R := 7; S := 4 |} [x00]
              H eq_refl D N) as (Hv & _ & Hi & _).
  split; [exact Hv | exact Hi].
Defined.

(** C2 as stated fails: with an ECDSA key, bytes that do not decode,
    bytes that decode with a byte left over, and bytes that decode in full
    and are rejected by the check all get the same error value. *)
Lemma Verify_ECDSA_errors_are_one_value :
  let V sigBytes :=
    value (Verify demo (ecdsa_key an_ecdsa_key) some_data
             (tagged SHA256 ECDSA sigBytes)) in
  asn1_Unmarshal demo not_der = Err "asn1: syntax error" /\
  asn1_Unmarshal demo (der_7_5 ++ [x00]) = Ok ({| R := 7; S := 5 |}, [x00]) /\
  asn1_Unmarshal demo der_7_5 = Ok ({| R := 7; S := 5 |}, []) /\
  ecdsa_Verify demo an_ecdsa_key (hash_Sum demo crypto.SHA256 some_data) 7 5
    = false /\
  V not_der = Some errVerify /\
  V (der_7_5 ++ [x00]) = Some errVerify /\
  V der_7_5 = Some errVerify /\
  V not_der = V der_7_5 /\
  V (der_7_5 ++ [x00]) = V der_7_5.
Proof.
  repeat split; vm_compute; reflexivity.
Qed.

(** C2, amended, at the same three signatures. *)
Lemma Verify_failure_is_error_and_ECDSA_errors_coincide_witness :
  let V sigBytes :=
    value (Verify demo (ecdsa_key an_ecdsa_key) some_data
             (tagged SHA256 ECDSA sigBytes)) in
  malformed demo not_der = true /\
  malformed demo (der_7_5 ++ [x00]) = true /\
  accepts demo (ecdsa_key an_ecdsa_key) some_data (tagged SHA256 ECDSA der_7_5)
    = false /\
  V not_der = Some errVerify /\
  V (der_7_5 ++ [x00]) = Some errVerify /\
  V der_7_5 = Some errVerify /\
  (exists e, V der_7_5 = Some e).
Proof.
  intros V. subst V.
  do 3 (split; [vm_compute; reflexivity|]).
  destruct (Verify_failure_is_error_and_ECDSA_errors_coincide demo)
    as (Hall & _ & Hecdsa).
  assert (Hs : forall b, supported (sigpb.HashAlgorithm (tagged SHA256 ECDSA b)) = true)
    by (intros b; vm_compute; reflexivity).
  split; [|split; [|split]].
  - apply (Hecdsa an_ecdsa_key some_data (tagged SHA256 ECDSA not_der)
             (Hs _) eq_refl).
    vm_compute; reflexivity.
  - apply (Hecdsa an_ecdsa_key some_data (tagged SHA256 ECDSA (der_7_5 ++ [x00]))
             (Hs _) eq_refl).
    vm_compute; reflexivity.
  - apply (proj2 (Hecdsa an_ecdsa_key some_data (tagged SHA256 ECDSA der_7_5)
                    (Hs _) eq_refl) {| R := 7; S := 5 |}).
    + vm_compute; reflexivity.
    + vm_compute; reflexivity.
  - apply (proj2 (Hall (ecdsa_key an_ecdsa_key) some_data
                    (tagged SHA256 ECDSA der_7_5))).
    vm_compute; reflexivity.
Defined.

(** C7 at an RSA key and a signature the stand-in library accepts. *)
Lemma Verify_RSA_is_PKCS1v15_witness :
  supported SHA256 = true /\
  calls (Verify demo (rsa_key an_rsa_key) some_data
           (tagged SHA256 RSA (rev some_data))) =
    [Hash_call crypto.SHA256 some_data;
     rsa_VerifyPKCS1v15_call an_rsa_key crypto.SHA256
       (hash_Sum demo crypto.SHA256 some_data) (rev some_data)] /\
  invokes is_VerifyPSS
    (Verify demo (rsa_key an_rsa_key) some_data
       (tagged SHA256 RSA (rev some_data))) = false.
Proof.
  split; [vm_compute; reflexivity|].
  assert (H : supported (sigpb.HashAlgorithm (tagged SHA256 RSA (rev some_data)))
              = true) by (vm_compute; reflexivity).
  destruct (Verify_RSA_is_PKCS1v15 demo an_rsa_key some_data
              (tagged SHA256 RSA (rev some_data)) H eq_refl)
    as (_ & Hc & _ & Hpss).
  split; [exact Hc | apply Hpss].
Defined.

(** C5 at a text object. *)
Lemma VerifyObject_is_hash_then_Verify_witness :
  value (CanonicalHash demo (text "{}")) = Ok (list_byte_of_string "{}") /\
  value (VerifyObject demo (ecdsa_key an_ecdsa_key) (text "{}")
           (tagged SHA256 ECDSA der_7_4)) =
  value (Verify demo (ecdsa_key an_ecdsa_key) (list_byte_of_string "{}")
           (tagged SHA256 ECDSA der_7_4)).
Proof.
  split; [vm_compute; reflexivity|].
  apply (VerifyObject_is_hash_then_Verify demo (ecdsa_key an_ecdsa_key)
           (text "{}") (tagged SHA256 ECDSA der_7_4) (list_byte_of_string "{}")).
  vm_compute; reflexivity.
Defined.

(** C8 at a channel, which the serializer refuses. *)
Lemma VerifyObject_unhashable_witness :
  value (CanonicalHash demo channel) = Err "json: unsupported type: chan int" /\
  VerifyObject demo (rsa_key an_rsa_key) channel (tagged SHA256 RSA der_7_4) =
    ([json_Marshal_call], Some (errLib "json: unsupported type: chan int")).
Proof.
  split; [vm_compute; reflexivity|].
  apply (VerifyObject_unhashable demo (rsa_key an_rsa_key) channel
           (tagged SHA256 RSA der_7_4) "json: unsupported type: chan int").
  vm_compute; reflexivity.
Defined.

(** C9 at four texts, one for each outcome. *)
Lemma PublicKeyFromPEM_outcomes_witness :
  value (PublicKeyFromPEM demo "no key here") = inr errCouldNotDecodePEM /\
  value (PublicKeyFromPEM demo "<E12>tail") = inr errExtraData /\
  value (PublicKeyFromPEM demo "<X12>") =
    inr (errUnableToParse "x509: unknown public key algorithm") /\
  value (PublicKeyFromPEM demo "<E12>") =
    inl (ecdsa_key {| ecdsa.Curve := "P-256"; ecdsa.X := 49; ecdsa.Y := 50 |}).
Proof.
  split; [|split; [|split]].
  - destruct (PublicKeyFromPEM_outcomes demo "no key here") as (H & _).
    rewrite (H (list_byte_of_string "no key here")); [reflexivity|].
    vm_compute; reflexivity.
  - destruct (PublicKeyFromPEM_outcomes demo "<E12>tail") as (_ & H & _).
    rewrite (H {| pem.Type_ := "PUBLIC KEY"; pem.Bytes := list_byte_of_string "E12" |}
               (list_byte_of_string "tail")); [reflexivity| |].
    + vm_compute; reflexivity.
    + simpl; lia.
  - destruct (PublicKeyFromPEM_outcomes demo "<X12>") as (_ & _ & H & _).
    rewrite (H {| pem.Type_ := "PUBLIC KEY"; pem.Bytes := list_byte_of_string "X12" |}
               "x509: unknown public key algorithm"); [reflexivity| |].
    + vm_compute; reflexivity.
    + vm_compute; reflexivity.
  - destruct (PublicKeyFromPEM_outcomes demo "<E12>") as (_ & _ & _ & H & _).
    rewrite (H {| pem.Type_ := "PUBLIC KEY"; pem.Bytes := list_byte_of_string "E12" |}
               (ecdsa_key {| ecdsa.Curve := "P-256"; ecdsa.X := 49; ecdsa.Y := 50 |}));
      [reflexivity| |].
    + vm_compute; reflexivity.
    + vm_compute; reflexivity.
Defined.

End Examples.

(** ** The further properties at concrete inputs *)

Module MoreExamples.
Import Demo.

(** X1 at a file that is not there. *)
Lemma PublicKeyFromFile_unreadable_witness :
  ioutil_ReadFile demo "missing.pem" = Err "open: no such file or directory" /\
  PublicKeyFromFile demo "missing.pem" =
    ([ReadFile_call "missing.pem"],
     inr (errFailedToRead "missing.pem" "open: no such file or directory")).
Proof.
  split; [vm_compute; reflexivity|].
  apply (PublicKeyFromFile_unreadable demo "missing.pem").
  vm_compute; reflexivity.
Defined.

(** X2 at the one file of the stand-in library. *)
Lemma PublicKeyFromFile_decodes_contents_witness :
  ioutil_ReadFile demo "key.pem" = Ok (list_byte_of_string "<E12>") /\
  value (PublicKeyFromFile demo "key.pem") =
    value (PublicKeyFromPEM demo
             (string_of_list_byte (list_byte_of_string "<E12>"))) /\
  exists tl,
    calls (PublicKeyFromFile demo "key.pem") =
      ReadFile_call "key.pem"
      :: pem_Decode_call (list_byte_of_string "<E12>") :: tl.
Proof.
  split; [vm_compute; reflexivity|].
  assert (H : ioutil_ReadFile demo "key.pem" = Ok (list_byte_of_string "<E12>"))
    by (vm_compute; reflexivity).
  destruct (PublicKeyFromFile_decodes_contents demo "key.pem"
              (list_byte_of_string "<E12>") H) as (Hv & _ & Hc).
  split; [exact Hv | exact Hc].
Defined.

(** X3 at a text that holds one key. *)
Lemma PublicKeyFromPEM_key_iff_witness :
  value (PublicKeyFromPEM demo "<R12>") =
    inl (rsa_key {| rsa.N := 49; rsa.E := 50 |}).
Proof.
  apply (PublicKeyFromPEM_key_iff demo "<R12>").
  exists {| pem.Type_ := "PUBLIC KEY"; pem.Bytes := list_byte_of_string "R12" |}.
  split; vm_compute; reflexivity.
Defined.


(** X5 at a block typed as a public key and the same block typed as a
    certificate. *)
Lemma PublicKeyFromPEM_ignores_block_type_witness :
  fst (pem_Decode demo (list_byte_of_string "<E12>")) <>
  fst (pem_Decode demo_cert (list_byte_of_string "<E12>")) /\
  PublicKeyFromPEM demo "<E12>" = PublicKeyFromPEM demo_cert "<E12>".
Proof.
  split; [vm_compute; discriminate|].
  apply (PublicKeyFromPEM_ignores_block_type demo demo_cert "<E12>"
           {| pem.Type_ := "PUBLIC KEY"; pem.Bytes := list_byte_of_string "E12" |}
           {| pem.Type_ := "CERTIFICATE"; pem.Bytes := list_byte_of_string "E12" |}
           []); reflexivity.
Defined.

(** X6 at a signature that passes and at one with a byte too many. *)
Lemma verifyECDSA_nil_iff_witness :
  value (verifyECDSA demo an_ecdsa_key (rev some_data) der_7_4) = None /\
  value (verifyECDSA demo an_ecdsa_key (rev some_data) (der_7_4 ++ [x00]))
    = Some errVerify.
Proof.
  split.
  - apply (proj2 (verifyECDSA_nil_iff demo an_ecdsa_key (rev some_data) der_7_4)).
    exists {| R := 7; S := 4 |}. split; vm_compute; reflexivity.
  - destruct (verifyECDSA_nil_iff demo an_ecdsa_key (rev some_data)
                (der_7_4 ++ [x00])) as ([E|E] & Hiff); [|exact E].
    apply Hiff in E. destruct E as (rs & E & _).
    vm_compute in E. discriminate E.
Defined.

(** X7 at a signature that decodes in full. *)
Lemma verifyECDSA_checks_whole_decodings_witness :
  exists rs,
    asn1_Unmarshal demo der_7_5 = Ok (rs, []) /\
    ecdsa_Verify_call an_ecdsa_key (rev some_data) 7 5 =
    ecdsa_Verify_call an_ecdsa_key (rev some_data) (R rs) (S rs).
Proof.
  apply (proj1 (verifyECDSA_checks_whole_decodings demo an_ecdsa_key
                  (rev some_data) der_7_5)).
  - vm_compute. right. left. reflexivity.
  - reflexivity.
Defined.

(** X10 at hash algorithm 7. *)
Lemma Verify_unsupported_error_prints_zero_witness :
  value (Verify demo (ecdsa_key an_ecdsa_key) some_data (tagged 7 ECDSA der_7_4))
    = Some (errUnsupportedHash 0) /\
  (0 = 0 /\ supported 7 = false).
Proof.
  split; [vm_compute; reflexivity|].
  apply (Verify_unsupported_error_prints_zero demo (ecdsa_key an_ecdsa_key)
           some_data (tagged 7 ECDSA der_7_4) 0).
  vm_compute; reflexivity.
Defined.

(** X11 at two data that collide under the weak digest: the signature made
    for one passes for the other. *)
Lemma Verify_depends_on_digest_witness :
  list_byte_of_string "leaf" <> list_byte_of_string "lead" /\
  hash_Sum demo_weak crypto.SHA256 (list_byte_of_string "leaf") =
  hash_Sum demo_weak crypto.SHA256 (list_byte_of_string "lead") /\
  value (Verify demo_weak (rsa_key an_rsa_key) (list_byte_of_string "leaf")
           (tagged SHA256 RSA (list_byte_of_string "le"))) =
  value (Verify demo_weak (rsa_key an_rsa_key) (list_byte_of_string "lead")
           (tagged SHA256 RSA (list_byte_of_string "le"))).
Proof.
  split; [vm_compute; discriminate|].
  split; [vm_compute; reflexivity|].
  apply (Verify_depends_on_digest demo_weak).
  vm_compute; reflexivity.
Defined.

(** X12 at a text object. *)
Lemma VerifyObject_checks_digest_of_object_hash_witness :
  json_Marshal demo (text "{}") = Ok (list_byte_of_string "{}") /\
  exists tl,
    calls (VerifyObject demo (ecdsa_key an_ecdsa_key) (text "{}")
             (tagged SHA256 ECDSA der_7_4)) =
      json_Marshal_call :: CommonJSONHash_call "{}" :: tl /\
    Forall (on_digest_of demo (list_byte_of_string "{}") der_7_4) tl.
Proof.
  split; [vm_compute; reflexivity|].
  assert (H : json_Marshal demo (text "{}") = Ok (list_byte_of_string "{}"))
    by (vm_compute; reflexivity).
  destruct (VerifyObject_checks_digest_of_object_hash demo
              (ecdsa_key an_ecdsa_key) (text "{}") (tagged SHA256 ECDSA der_7_4)
              (list_byte_of_string "{}") H) as (_ & tl & Hc & Hf).
  exists tl. split; [exact Hc | exact Hf].
Defined.

(** X13 at an object whose signature passes. *)
Lemma VerifyObject_nil_iff_witness :
  value (VerifyObject demo (rsa_key an_rsa_key) (text "{}")
           (tagged SHA256 RSA (list_byte_of_string "}{"))) = None.
Proof.
  apply (VerifyObject_nil_iff demo).
  exists (list_byte_of_string "{}"). split; vm_compute; reflexivity.
Defined.

(** X14 at two objects with different serializations and one object hash. *)
Lemma VerifyObject_equal_hash_equal_answer_witness :
  json_Marshal demo_weak (text "ab") <> json_Marshal demo_weak (text "ac") /\
  value (VerifyObject demo_weak (ecdsa_key an_ecdsa_key) (text "ab")
           (tagged SHA256 ECDSA der_7_4)) =
  value (VerifyObject demo_weak (ecdsa_key an_ecdsa_key) (text "ac")
           (tagged SHA256 ECDSA der_7_4)).
Proof.
  split; [vm_compute; discriminate|].
  apply (VerifyObject_equal_hash_equal_answer demo_weak (ecdsa_key an_ecdsa_key)
           (tagged SHA256 ECDSA der_7_4) (text "ab") (text "ac")
           (list_byte_of_string "ab") (list_byte_of_string "ac"));
    vm_compute; reflexivity.
Defined.

End MoreExamples.
